(** * Chatbot Proxy API: the [/test] and [/chat] handlers of [main.py]

    A shallow embedding of the two request handlers, followed by the
    properties of the key resolution, of the outbound call and of the way
    upstream answers and failures are turned into results.

    Conventions.
    - A Python [str] is a [str]: a sequence of code points, of any value.
      A string literal denotes the sequence of its ASCII characters.
    - The value of a request header is a [string]: the server decodes it
      as Latin-1, one character per byte, so its code points are below
      256. [decode_latin1] turns it into the [str] the handler sees.
    - [Optional[T]] is [option T]; [None] is Python's [None].
    - A value of type [Any] (parsed JSON, the payload) is a [pyval].
    - A [dict] is a [gmap] from [str]; the handler never depends on the
      order of keys.
    - The handler runs in the monad [M]: it reads the process environment,
      records each [requests.post] call in a log and may raise. *)

From Stdlib Require Import ZArith NArith Ascii String List SpecFloat.
From Stdlib Require Strings.Byte.
From stdpp Require Import base option list gmap strings fin_maps.

Set Warnings "-register-all".
Local Open Scope string_scope.

(** ** Header text

    The methods of [str] on the text of a request header, which has one
    character per byte. *)

Module PyStr.

(** [str.isspace] on one character: the white space of code points below
    256 is U+0009..U+000D, U+001C..U+0020, U+0085 and U+00A0. *)
Definition isspace (c : ascii) : bool :=
  let n := N_of_ascii c in
  ((9 <=? n) && (n <=? 13) || (28 <=? n) && (n <=? 32)
   || (n =? 133) || (n =? 160))%N.

(** [str.lower] on one character: A..Z and the upper-case letters
    U+00C0..U+00DE (U+00D7, the multiplication sign, is not a letter)
    move up by 32; everything else is unchanged. *)
Definition lower_char (c : ascii) : ascii :=
  let n := N_of_ascii c in
  if ((65 <=? n) && (n <=? 90)
      || (192 <=? n) && (n <=? 222) && negb (n =? 215))%N
  then ascii_of_N (n + 32) else c.

(** [s.lower()] *)
Fixpoint lower (s : string) : string :=
  match s with
  | EmptyString => EmptyString
  | String c s' => String (lower_char c) (lower s')
  end.

(** [s.startswith(p)] *)
Fixpoint startswith (s p : string) : bool :=
  match p, s with
  | EmptyString, _ => true
  | String _ _, EmptyString => false
  | String a p', String b s' => if Ascii.eqb a b then startswith s' p' else false
  end.

(** [s.lstrip()] *)
Fixpoint lstrip (s : string) : string :=
  match s with
  | EmptyString => EmptyString
  | String c s' => if isspace c then lstrip s' else s
  end.

(** [s.rstrip()] *)
Fixpoint rstrip (s : string) : string :=
  match s with
  | EmptyString => EmptyString
  | String c s' =>
      match rstrip s' with
      | EmptyString => if isspace c then EmptyString else String c EmptyString
      | r => String c r
      end
  end.

(** [s.strip()]: white space is removed at both ends. *)
Definition strip (s : string) : string := rstrip (lstrip s).

(** [s[n:]] *)
Fixpoint drop (n : nat) (s : string) : string :=
  match n, s with
  | O, _ => s
  | S _, EmptyString => EmptyString
  | S n', String _ s' => drop n' s'
  end.

(** [s.split(sep, 1)] for a non-empty separator: the text before the
    first occurrence of [sep] and the text after it, or [s] alone when
    [sep] does not occur. *)
Fixpoint split1 (sep s : string) : list string :=
  if startswith s sep then [EmptyString; drop (String.length sep) s]
  else match s with
       | EmptyString => [EmptyString]
       | String c s' =>
           match split1 sep s' with
           | [one] => [String c one]
           | before :: rest => String c before :: rest
           | [] => []
           end
       end.

(** [sub in s] *)
Fixpoint contains (sub s : string) : bool :=
  startswith s sub ||
  match s with
  | EmptyString => false
  | String _ s' => contains sub s'
  end.

(** Every character of [s] is white space. *)
Fixpoint all_space (s : string) : bool :=
  match s with
  | EmptyString => true
  | String c s' => isspace c && all_space s'
  end.

(** The first character of [s], when there is one, is not white space. *)
Definition head_solid (s : string) : bool :=
  match s with
  | EmptyString => true
  | String c _ => negb (isspace c)
  end.

(** The last character of [s], when there is one, is not white space. *)
Fixpoint last_solid (s : string) : bool :=
  match s with
  | EmptyString => true
  | String c EmptyString => negb (isspace c)
  | String _ s' => last_solid s'
  end.

End PyStr.

(** ** Python strings *)

(** A [str]: code points, in order. *)
Inductive str : Set :=
| EmptyStr
| Str (c : N) (s : str).

(** The [str] of a literal: one code point for each byte. *)
Fixpoint str_of_bytes (l : list Byte.byte) : str :=
  match l with
  | [] => EmptyStr
  | b :: l' => Str (Byte.to_N b) (str_of_bytes l')
  end.

Fixpoint bytes_of_str (s : str) : option (list Byte.byte) :=
  match s with
  | EmptyStr => Some []
  | Str c s' =>
      match Byte.of_N c, bytes_of_str s' with
      | Some b, Some l => Some (b :: l)
      | _, _ => None
      end
  end.

Declare Scope str_scope.
Delimit Scope str_scope with str.
Bind Scope str_scope with str.
String Notation str str_of_bytes bytes_of_str : str_scope.

Fixpoint code_points (s : str) : list N :=
  match s with
  | EmptyStr => []
  | Str c s' => c :: code_points s'
  end.

Fixpoint of_code_points (l : list N) : str :=
  match l with
  | [] => EmptyStr
  | c :: l' => Str c (of_code_points l')
  end.

Global Instance str_eq_dec : EqDecision str.
Proof. solve_decision. Defined.

Global Instance str_countable : Countable str.
Proof.
  apply (inj_countable' code_points of_code_points).
  intros s. induction s as [|c s IH]; [reflexivity |].
  cbn. by rewrite IH.
Defined.

(** [s + t] *)
Fixpoint str_app (s t : str) : str :=
  match s with
  | EmptyStr => t
  | Str c s' => Str c (str_app s' t)
  end.

Infix "++" := str_app : str_scope.

(** The [str] of a header value: each byte is the code point of its
    number. *)
Fixpoint decode_latin1 (s : string) : str :=
  match s with
  | EmptyString => EmptyStr
  | String c s' => Str (N_of_ascii c) (decode_latin1 s')
  end.

Local Open Scope str_scope.

Module Unicode.

(** [str.isspace] on one code point: U+0009..U+000D, U+001C..U+0020,
    U+0085, U+00A0, U+1680, U+2000..U+200A, U+2028, U+2029, U+202F, U+205F
    and U+3000. *)
Definition isspace (c : N) : bool :=
  ((0x9 <=? c) && (c <=? 0xD) || (0x1C <=? c) && (c <=? 0x20)
   || (c =? 0x85) || (c =? 0xA0) || (c =? 0x1680)
   || (0x2000 <=? c) && (c <=? 0x200A)
   || (c =? 0x2028) || (c =? 0x2029) || (c =? 0x202F) || (c =? 0x205F)
   || (c =? 0x3000))%N.

(** [len(s)] *)
Fixpoint length (s : str) : nat :=
  match s with
  | EmptyStr => 0
  | Str _ s' => S (length s')
  end.

(** The code point at position [n] of [s]. *)
Fixpoint get (n : nat) (s : str) : option N :=
  match s, n with
  | EmptyStr, _ => None
  | Str c _, O => Some c
  | Str _ s', S n' => get n' s'
  end.

(** [s.startswith(p)] *)
Fixpoint startswith (s p : str) : bool :=
  match p, s with
  | EmptyStr, _ => true
  | Str _ _, EmptyStr => false
  | Str a p', Str b s' => if (a =? b)%N then startswith s' p' else false
  end.

(** [sub in s] *)
Fixpoint contains (sub s : str) : bool :=
  startswith s sub ||
  match s with
  | EmptyStr => false
  | Str _ s' => contains sub s'
  end.

(** [s.lstrip()] *)
Fixpoint lstrip (s : str) : str :=
  match s with
  | EmptyStr => EmptyStr
  | Str c s' => if isspace c then lstrip s' else s
  end.

(** [s.rstrip()] *)
Fixpoint rstrip (s : str) : str :=
  match s with
  | EmptyStr => EmptyStr
  | Str c s' =>
      match rstrip s' with
      | EmptyStr => if isspace c then EmptyStr else Str c EmptyStr
      | r => Str c r
      end
  end.

(** [s.strip()]: white space is removed at both ends. *)
Definition strip (s : str) : str := rstrip (lstrip s).

(** Every code point of [s] is white space. *)
Fixpoint all_space (s : str) : bool :=
  match s with
  | EmptyStr => true
  | Str c s' => isspace c && all_space s'
  end.

(** The first code point of [s], when there is one, is not white space. *)
Definition head_solid (s : str) : bool :=
  match s with
  | EmptyStr => true
  | Str c _ => negb (isspace c)
  end.

(** The last code point of [s], when there is one, is not white space. *)
Fixpoint last_solid (s : str) : bool :=
  match s with
  | EmptyStr => true
  | Str c EmptyStr => negb (isspace c)
  | Str _ s' => last_solid s'
  end.

End Unicode.

(** ** Values *)

(** A Python value of type [Any], as the JSON decoder produces it and as
    the JSON encoder accepts it. *)
Inductive pyval : Type :=
| PNone
| PBool (b : bool)
| PInt (n : Z)
| PFloat (f : spec_float)
| PStr (s : str)
| PList (l : list pyval)
| PDict (d : gmap str pyval).

(** A subscript: [v["k"]] or [v[i]]. *)
Inductive pykey : Type :=
| KStr (k : str)
| KInt (i : Z).

(** What the handler can raise. [HTTPException] carries the status and
    the detail the exception object holds; [RequestException] carries
    [str(e)]. *)
Inductive exn : Type :=
| HTTPException (status : Z) (detail : pyval)
| RequestException (msg : str)
| JSONDecodeError
| ValidationError
| ValueError
| KeyError
| IndexError
| TypeError
| AttributeError
| OtherError (msg : str).

(** Truth value of an [Optional[str]]: [None] and the empty string are
    false. *)
Definition truthy (o : option str) : bool :=
  match o with
  | Some (Str _ _) => true
  | _ => false
  end.

(** [a or b] *)
Definition py_or (a b : option str) : option str :=
  if truthy a then a else b.

Infix "or'" := py_or (at level 50, left associativity).

(** [v[k]]. A [dict] built by the JSON decoder has string keys only, so an
    integer subscript finds nothing in it; a list takes a negative index
    from its end; a string yields one character. *)
Definition getitem (v : pyval) (k : pykey) : exn + pyval :=
  match v, k with
  | PDict d, KStr key =>
      match d !! key with Some x => inr x | None => inl KeyError end
  | PDict _, KInt _ => inl KeyError
  | PList l, KInt i =>
      let j := (if i <? 0 then Z.of_nat (List.length l) + i else i)%Z in
      if (j <? 0)%Z then inl IndexError
      else match l !! Z.to_nat j with Some x => inr x | None => inl IndexError end
  | PStr s, KInt i =>
      let j := (if i <? 0 then Z.of_nat (Unicode.length s) + i else i)%Z in
      if (j <? 0)%Z then inl IndexError
      else match Unicode.get (Z.to_nat j) s with
           | Some c => inr (PStr (Str c EmptyStr))
           | None => inl IndexError
           end
  | _, _ => inl TypeError
  end.

(** [v.strip()]: only a [str] has the method. *)
Definition strip_method (v : pyval) : exn + pyval :=
  match v with
  | PStr s => inr (PStr (Unicode.strip s))
  | _ => inl AttributeError
  end.

(** [v.get(k, default)]: only a [dict] has the method. *)
Definition get_method (v : pyval) (k : str) (default : pyval) : exn + pyval :=
  match v with
  | PDict d => inr (match d !! k with Some x => x | None => default end)
  | _ => inl AttributeError
  end.

(** ** The data model of [main.py] *)

Record Message := { role : str; content : str }.

Record ChatRequest := {
  messages : list Message;
  model : str;
  temperature : option spec_float;
  top_p : option spec_float;
  api_key : option str;
  extra : option (gmap str pyval)
}.

(** The field [model] of [ChatResponse] is [used_model] here: [model] is
    the field of [ChatRequest]. *)
Record ChatResponse := { reply : str; used_model : str }.

(** [m.dict()] *)
Definition Message_dict (m : Message) : pyval :=
  PDict {[ "role" := PStr (role m); "content" := PStr (content m) ]}.

(** An [Optional[float]] as a value. *)
Definition of_float (o : option spec_float) : pyval :=
  match o with Some f => PFloat f | None => PNone end.

(** What the validation of a [str] field does with a number or a boolean.
    pydantic 1 renders it with [str()], pydantic 2 rejects it; the source
    does not pin the version, and nothing below depends on the choice. *)
Class StrCoercion := str_of_number : pyval -> option str.

(** The validation that rejects every number. *)
Definition strict_str : StrCoercion := fun _ => None.

(** Validation of a field declared [str]: a [str] is taken as it is, a
    number or a boolean goes through [str_of_number], and [None], lists
    and dicts are rejected. *)
Definition validate_str `{StrCoercion} (v : pyval) : option str :=
  match v with
  | PStr s => Some s
  | PBool _ | PInt _ | PFloat _ => str_of_number v
  | PNone | PList _ | PDict _ => None
  end.

(** [http.HTTPStatus(status).phrase], or [None] where [http.HTTPStatus]
    has no member of that value and raises [ValueError]. The table belongs
    to the Python that runs the server. *)
Class StatusPhrases := phrase : Z -> option str.

(** What [raise HTTPException(status_code=status, detail=detail)] raises.
    The constructor replaces a detail that is [None] by the phrase of the
    status, and fails with [ValueError] when the status has none; any
    other detail is kept. *)
Definition new_HTTPException `{StatusPhrases} (status : Z) (detail : pyval) : exn :=
  match detail with
  | PNone =>
      match phrase status with
      | Some p => HTTPException status (PStr p)
      | None => ValueError
      end
  | _ => HTTPException status detail
  end.

(** ** The world and the handler monad *)

(** The response object of [requests]: [r.status_code], [r.text], and the
    result of [r.json()], which is [None] when the body is not JSON and
    [r.json()] raises. *)
Record Response := { status_code : Z; text : str; json : option pyval }.

(** One call [requests.post(url, headers=..., json=..., timeout=...)]. *)
Record Call := {
  url : str;
  headers : gmap str str;
  payload : gmap str pyval;
  timeout : Z
}.

(** What a call to [requests.post] comes back with. *)
Inductive post_result : Type :=
| Responded (r : Response)
| Failed (e : exn).

(** The process environment, and the network: the answer to a call may
    depend on how many calls were made before it. *)
Record World := {
  environ : gmap str str;
  upstream : nat -> Call -> post_result
}.

Inductive outcome (A : Type) : Type :=
| Returned (a : A)
| Raised (e : exn).
Arguments Returned {A} a.
Arguments Raised {A} e.

(** A handler reads the world, appends to the log of outbound calls, and
    returns or raises. *)
Definition M (A : Type) : Type := World -> list Call -> list Call * outcome A.

Definition ret {A} (a : A) : M A := fun _ log => (log, Returned a).

Definition raise {A} (e : exn) : M A := fun _ log => (log, Raised e).

Definition bind {A B} (m : M A) (k : A -> M B) : M B :=
  fun w log =>
    match m w log with
    | (log', Returned a) => k a w log'
    | (log', Raised e) => (log', Raised e)
    end.

(** [try: m except ...: h]; [h e] is [None] when no clause matches [e]. *)
Definition try_except {A} (m : M A) (h : exn -> option (M A)) : M A :=
  fun w log =>
    match m w log with
    | (log', Raised e) =>
        match h e with
        | Some handler => handler w log'
        | None => (log', Raised e)
        end
    | done => done
    end.

(** A computation without effects, run inside the handler. *)
Definition lift {A} (r : exn + A) : M A :=
  match r with inr a => ret a | inl e => raise e end.

Notation "'let*' x ':=' m 'in' k" := (bind m (fun x => k))
  (at level 10, x name, m at level 100, k at level 200).

(** [os.getenv(name)] *)
Definition getenv (name : str) : M (option str) :=
  fun w log => (log, Returned (environ w !! name)).

(** [os.getenv(name, default)] *)
Definition getenv_default (name default : str) : M str :=
  fun w log => (log, Returned (match environ w !! name with Some v => v | None => default end)).

(** [requests.post(...)]: the call is logged and the network answers. *)
Definition requests_post (c : Call) : M Response :=
  fun w log =>
    match upstream w (List.length log) c with
    | Responded r => ((log ++ [c])%list, Returned r)
    | Failed e => ((log ++ [c])%list, Raised e)
    end.

(** [r.json()] *)
Definition Response_json (r : Response) : M pyval :=
  match json r with Some v => ret v | None => raise JSONDecodeError end.

(** [except requests.RequestException as e] *)
Definition except_RequestException {A} (h : str -> M A) : exn -> option (M A) :=
  fun e => match e with RequestException msg => Some (h msg) | _ => None end.

(** [except Exception] *)
Definition except_Exception {A} (h : M A) : exn -> option (M A) :=
  fun _ => Some h.

(** ** The handlers *)

(** [GET /test] *)
Definition test : M pyval :=
  ret (PDict {[ "status" := PStr "ok" ]}).

Definition missing_key_detail : str :=
  "OpenRouter API key not provided. Add 'api_key' in JSON body, or set 'OPENROUTER_API_KEY' env var, "
  ++ "or send header 'x-openrouter-key: <key>' or 'Authorization: Bearer <key>'.".

Section Chat.

Context {sc : StrCoercion} {sp : StatusPhrases}.

(** [ChatResponse(reply=..., model=...)]: both fields are validated. *)
Definition ChatResponse_new (reply_v model_v : pyval) : M ChatResponse :=
  match validate_str reply_v, validate_str model_v with
  | Some r, Some m => ret {| reply := r; used_model := m |}
  | _, _ => raise ValidationError
  end.

(** Lines 57-59: the token of an [Authorization: Bearer ...] header. *)
Definition bearer_key (authorization : option string) : M (option string) :=
  match authorization with
  | Some a =>
      if truthy (Some (decode_latin1 a))
         && PyStr.startswith (PyStr.lower a) "bearer " then
        match PyStr.split1 " " a !! 1%nat with
        | Some token => ret (Some (PyStr.strip token))
        | None => raise IndexError
        end
      else ret None
  | None => ret None
  end.

(** Lines 86-94: the JSON body of the outbound call. *)
Definition build_payload (req : ChatRequest) : gmap str pyval :=
  let payload : gmap str pyval :=
    {[ "model" := PStr (model req);
       "messages" := PList (map Message_dict (messages req));
       "temperature" := of_float (temperature req);
       "top_p" := of_float (top_p req) ]} in
  match extra req with
  | Some e => if decide (e = ∅) then payload else e ∪ payload
  | None => payload
  end.

(** Lines 111-112: the assistant's text and the model that was used. *)
Definition extract_reply (req : ChatRequest) (data : pyval) : M (pyval * pyval) :=
  let* choices := lift (getitem data (KStr "choices")) in
  let* first := lift (getitem choices (KInt 0)) in
  let* message := lift (getitem first (KStr "message")) in
  let* content_v := lift (getitem message (KStr "content")) in
  let* reply_v := lift (strip_method content_v) in
  let* model_v := lift (get_method data "model" (PStr (model req))) in
  ret (reply_v, model_v).

(** [POST /chat]. The two header values arrive as header text and enter
    the [or] chain as the [str] they decode to. The [match] on the key is
    the test [if not api_key] of line 68: a key that is [None] or empty
    raises, any other is used. *)
Definition chat (req : ChatRequest) (x_openrouter_key authorization : option string)
  : M ChatResponse :=
  let* bearer := bearer_key authorization in
  let* env_key := getenv "OPENROUTER_API_KEY" in
  match api_key req or' env_key or' (decode_latin1 <$> x_openrouter_key)
        or' (decode_latin1 <$> bearer) with
  | Some (Str _ _ as key) =>
      let url := "https://openrouter.ai/api/v1/chat/completions" in
      let* referer := getenv_default "APP_URL" "http://localhost:3000" in
      let* title := getenv_default "APP_NAME" "Vibe Chatbot" in
      let headers : gmap str str :=
        {[ "Authorization" := "Bearer " ++ key;
           "Content-Type" := "application/json";
           "HTTP-Referer" := referer;
           "X-Title" := title ]} in
      let payload := build_payload req in
      let* r :=
        try_except
          (requests_post {| url := url; headers := headers; payload := payload; timeout := 60 |})
          (except_RequestException (fun e =>
             raise (new_HTTPException 502 (PStr ("Upstream request failed: " ++ e))))) in
      if (status_code r >=? 400)%Z then
        let* data :=
          try_except (Response_json r)
            (except_Exception (ret (PDict {[ "error" := PStr (text r) ]}))) in
        raise (new_HTTPException (status_code r) data)
      else
        let* data := Response_json r in
        let* extracted :=
          try_except (extract_reply req data)
            (except_Exception
               (raise (new_HTTPException 500
                         (PStr "Unexpected response format from OpenRouter")))) in
        ChatResponse_new (fst extracted) (snd extracted)
  | _ =>
      raise (new_HTTPException 400 (PStr missing_key_detail))
  end.

End Chat.

(** How the framework answers a result it can render as JSON: 200 for a
    returned value, the status of an [HTTPException], 500 for any other
    exception. *)
Definition http_status {A} (o : outcome A) : Z :=
  match o with
  | Returned _ => 200
  | Raised (HTTPException s _) => s
  | Raised _ => 500
  end.

(** ** Observing a run *)

(** The outbound calls of a handler started with an empty log. *)
Definition calls_of {A} (m : M A) (w : World) : list Call := fst (m w []).

(** What the handler returns or raises. *)
Definition result_of {A} (m : M A) (w : World) : outcome A := snd (m w []).

(** What the network answered to the first outbound call, if the handler
    made one. *)
Definition upstream_answer {A} (m : M A) (w : World) : option post_result :=
  match calls_of m w with
  | c :: _ => Some (upstream w 0 c)
  | [] => None
  end.

(** ** The specification's vocabulary *)

(** The first value of a list of sources that is neither absent nor
    empty. *)
Fixpoint first_nonempty (sources : list (option str)) : option str :=
  match sources with
  | [] => None
  | o :: rest => if truthy o then o else first_nonempty rest
  end.

(** ASCII case folding. *)
Definition fold_case (c : ascii) : ascii :=
  let n := N_of_ascii c in
  if ((65 <=? n) && (n <=? 90))%N then ascii_of_N (n + 32) else c.

(** [s] starts with [p], letters compared without regard to case. *)
Fixpoint ci_startswith (s p : string) : bool :=
  match p, s with
  | EmptyString, _ => true
  | String _ _, EmptyString => false
  | String a p', String b s' =>
      Ascii.eqb (fold_case a) (fold_case b) && ci_startswith s' p'
  end.

(** Everything after the first space of [s]. *)
Fixpoint after_first_space (s : string) : option string :=
  match s with
  | EmptyString => None
  | String c s' => if Ascii.eqb c " " then Some s' else after_first_space s'
  end.

(** The fourth key source: the trimmed text after the first space of an
    [Authorization] header that starts with "Bearer ", whatever the case
    of its letters. *)
Definition bearer_token (authorization : option string) : option string :=
  match authorization with
  | Some a =>
      if ci_startswith a "Bearer " then PyStr.strip <$> after_first_space a
      else None
  | None => None
  end.

(** The four key sources of a request, in the order of precedence. *)
Definition key_sources (req : ChatRequest) (x_openrouter_key authorization : option string)
    (w : World) : list (option str) :=
  [ api_key req;
    environ w !! "OPENROUTER_API_KEY";
    decode_latin1 <$> x_openrouter_key;
    decode_latin1 <$> bearer_token authorization ].

(** [choices[0].message.content] of a JSON document. *)
Definition content_path (data : pyval) : option pyval :=
  match data with
  | PDict d =>
      match d !! "choices" with
      | Some (PList (PDict first :: _)) =>
          match first !! "message" with
          | Some (PDict message) => message !! "content"
          | _ => None
          end
      | _ => None
      end
  | _ => None
  end.

(** The top-level [model] field of a JSON document. *)
Definition top_model (data : pyval) : option pyval :=
  match data with
  | PDict d => d !! "model"
  | _ => None
  end.

(** The built-in fields of the outbound JSON body. *)
Definition builtin_fields (req : ChatRequest) : gmap str pyval :=
  {[ "model" := PStr (model req);
     "messages" := PList (map Message_dict (messages req));
     "temperature" := of_float (temperature req);
     "top_p" := of_float (top_p req) ]}.

(** The outbound call for a resolved key. *)
Definition outbound (req : ChatRequest) (key : str) (w : World) : Call :=
  {| url := "https://openrouter.ai/api/v1/chat/completions";
     headers :=
       {[ "Authorization" := "Bearer " ++ key;
          "Content-Type" := "application/json";
          "HTTP-Referer" := default "http://localhost:3000" (environ w !! "APP_URL");
          "X-Title" := default "Vibe Chatbot" (environ w !! "APP_NAME") ]};
     payload := build_payload req;
     timeout := 60 |}.

(** What the handler makes of an upstream response. *)
Definition after_response {sc : StrCoercion} {sp : StatusPhrases} (req : ChatRequest) (r : Response)
    : outcome ChatResponse :=
  if (status_code r >=? 400)%Z then
    Raised (new_HTTPException (status_code r)
              (match json r with
               | Some data => data
               | None => PDict {[ "error" := PStr (text r) ]}
               end))
  else
    match json r with
    | None => Raised JSONDecodeError
    | Some data =>
        match content_path data with
        | Some (PStr text) =>
            match validate_str (default (PStr (model req)) (top_model data)) with
            | Some m => Returned {| reply := Unicode.strip text; used_model := m |}
            | None => Raised ValidationError
            end
        | _ => Raised (HTTPException 500 (PStr "Unexpected response format from OpenRouter"))
        end
    end.

(** ** A sample request and sample worlds *)

Module Sample.

(** The phrases of [http.HTTPStatus] in Python 3.11. *)
Definition phrases : StatusPhrases := fun status =>
  match status with
  | 100 => Some "Continue"
  | 101 => Some "Switching Protocols"
  | 102 => Some "Processing"
  | 103 => Some "Early Hints"
  | 200 => Some "OK"
  | 201 => Some "Created"
  | 202 => Some "Accepted"
  | 203 => Some "Non-Authoritative Information"
  | 204 => Some "No Content"
  | 205 => Some "Reset Content"
  | 206 => Some "Partial Content"
  | 207 => Some "Multi-Status"
  | 208 => Some "Already Reported"
  | 226 => Some "IM Used"
  | 300 => Some "Multiple Choices"
  | 301 => Some "Moved Permanently"
  | 302 => Some "Found"
  | 303 => Some "See Other"
  | 304 => Some "Not Modified"
  | 305 => Some "Use Proxy"
  | 307 => Some "Temporary Redirect"
  | 308 => Some "Permanent Redirect"
  | 400 => Some "Bad Request"
  | 401 => Some "Unauthorized"
  | 402 => Some "Payment Required"
  | 403 => Some "Forbidden"
  | 404 => Some "Not Found"
  | 405 => Some "Method Not Allowed"
  | 406 => Some "Not Acceptable"
  | 407 => Some "Proxy Authentication Required"
  | 408 => Some "Request Timeout"
  | 409 => Some "Conflict"
  | 410 => Some "Gone"
  | 411 => Some "Length Required"
  | 412 => Some "Precondition Failed"
  | 413 => Some "Request Entity Too Large"
  | 414 => Some "Request-URI Too Long"
  | 415 => Some "Unsupported Media Type"
  | 416 => Some "Requested Range Not Satisfiable"
  | 417 => Some "Expectation Failed"
  | 418 => Some "I'm a Teapot"
  | 421 => Some "Misdirected Request"
  | 422 => Some "Unprocessable Entity"
  | 423 => Some "Locked"
  | 424 => Some "Failed Dependency"
  | 425 => Some "Too Early"
  | 426 => Some "Upgrade Required"
  | 428 => Some "Precondition Required"
  | 429 => Some "Too Many Requests"
  | 431 => Some "Request Header Fields Too Large"
  | 451 => Some "Unavailable For Legal Reasons"
  | 500 => Some "Internal Server Error"
  | 501 => Some "Not Implemented"
  | 502 => Some "Bad Gateway"
  | 503 => Some "Service Unavailable"
  | 504 => Some "Gateway Timeout"
  | 505 => Some "HTTP Version Not Supported"
  | 506 => Some "Variant Also Negotiates"
  | 507 => Some "Insufficient Storage"
  | 508 => Some "Loop Detected"
  | 510 => Some "Not Extended"
  | 511 => Some "Network Authentication Required"
  | _ => None
  end%Z.

(** The binary64 numbers nearest to 0.7 and equal to 1.0. *)
Definition f0_7 : spec_float := S754_finite false 6305039478318694 (-53).
Definition f1_0 : spec_float := S754_finite false 4503599627370496 (-52).

(** A request whose [api_key] is the empty string and whose [extra]
    adds [stream] and replaces [model]. *)
Definition request : ChatRequest :=
  {| messages := [ {| role := "user"; content := "Hello" |} ];
     model := "openai/gpt-4o-mini";
     temperature := Some f0_7;
     top_p := Some f1_0;
     api_key := Some "";
     extra := Some {[ "stream" := PBool false; "model" := PStr "other/model" ]} |}.

(** The same request without [extra] and without a key of its own. *)
Definition plain_request : ChatRequest :=
  {| messages := [ {| role := "user"; content := "Hello" |} ];
     model := "openai/gpt-4o-mini";
     temperature := Some f0_7;
     top_p := Some f1_0;
     api_key := None;
     extra := None |}.

Definition choices (text : str) : pyval :=
  PList [ PDict {[ "index" := PInt 0;
                   "message" := PDict {[ "role" := PStr "assistant";
                                         "content" := PStr text ]} ]} ].

(** A well-formed completion. *)
Definition completion : pyval :=
  PDict {[ "id" := PStr "gen-1";
           "model" := PStr "openai/gpt-4o-mini-2024-07-18";
           "choices" := choices "  Hi there!  " ]}.

(** A completion whose [model] is [null]. *)
Definition completion_null_model : pyval :=
  PDict {[ "id" := PStr "gen-1";
           "model" := PNone;
           "choices" := choices "  Hi there!  " ]}.

(** A document without [choices]. *)
Definition no_choices : pyval :=
  PDict {[ "id" := PStr "gen-1"; "model" := PStr "openai/gpt-4o-mini" ]}.

Definition ok (data : pyval) : Response :=
  {| status_code := 200; text := "(json)"; json := Some data |}.

Definition rate_limited : Response :=
  {| status_code := 429; text := "(json)";
     json := Some (PDict {[ "error" := PStr "rate limited" ]}) |}.

Definition bad_gateway_page : Response :=
  {| status_code := 502; text := "<html>Bad Gateway</html>"; json := None |}.

Definition html_page : Response :=
  {| status_code := 200; text := "<html>maintenance</html>"; json := None |}.

(** A world whose environment holds a key, where the network gives
    [first] to the first call and a good completion to any later one. *)
Definition world (first : post_result) : World :=
  {| environ := {[ "OPENROUTER_API_KEY" := "sk-env"; "APP_NAME" := "Demo" ]};
     upstream := λ n _, match n with
                        | O => first
                        | S _ => Responded (ok completion)
                        end |}.

(** A world with an empty environment and a working network. *)
Definition bare_world : World :=
  {| environ := ∅; upstream := λ _ _, Responded (ok completion) |}.

End Sample.

(** ** Further sample documents *)

Module Edge.

(** A completion that carries tool calls: its [content] is [null]. *)
Definition tool_call_completion : pyval :=
  PDict {[ "model" := PStr "openai/gpt-4o-mini";
           "choices" := PList [ PDict {[ "message" :=
                          PDict {[ "role" := PStr "assistant";
                                   "content" := PNone ]} ]} ] ]}.

(** A completion whose [model] is a list. *)
Definition list_model_completion : pyval :=
  PDict {[ "model" := PList [PStr "a"; PStr "b"];
           "choices" := Sample.choices "ok" ]}.

(** A request of two messages that carries its own key. *)
Definition dialogue : ChatRequest :=
  {| messages := [ {| role := "system"; content := "Be brief." |};
                   {| role := "user"; content := "Hello" |} ];
     model := "openai/gpt-4o-mini";
     temperature := None;
     top_p := Some Sample.f1_0;
     api_key := Some "sk-body";
     extra := Some {[ "stream" := PBool false ]} |}.

(** The two ideographs U+4F60 U+597D. *)
Definition ni_hao : str := Str 0x4F60 (Str 0x597D EmptyStr).

(** The same two ideographs after an ideographic space, U+3000, and a
    line feed, and before an em space, U+2003. *)
Definition ni_hao_spaced : str :=
  Str 0x3000 (Str 0xA (Str 0x4F60 (Str 0x597D (Str 0x2003 EmptyStr)))).

(** A completion whose text is [ni_hao_spaced] and which names no
    model. *)
Definition unicode_completion : pyval :=
  PDict {[ "choices" := Sample.choices ni_hao_spaced ]}.

(** An error answer whose body is the JSON value [null]. *)
Definition null_error (status : Z) : Response :=
  {| status_code := status; text := "null"; json := Some PNone |}.

End Edge.

(** * Properties *)

(** ** Header text *)

Local Open Scope string_scope.

Example strip_ex : PyStr.strip "  hi there
 " = "hi there".
Proof. reflexivity. Qed.

Example split1_ex : PyStr.split1 " " "Bearer abc def" = ["Bearer"; "abc def"].
Proof. reflexivity. Qed.

Example split1_none : PyStr.split1 " " "Bearer" = ["Bearer"].
Proof. reflexivity. Qed.

Example lower_ex : PyStr.lower "BeArEr X" = "bearer x".
Proof. reflexivity. Qed.

Ltac each_char c := destruct c as [[] [] [] [] [] [] [] []].

(** Lower-casing a character yields one of the letters of "bearer " exactly
    when the character is that letter in either case. *)
Lemma lower_char_fold (x c : ascii) :
  x ∈ ["b"; "e"; "a"; "r"; " "]%char →
  Ascii.eqb x (PyStr.lower_char c) = Ascii.eqb (fold_case x) (fold_case c).
Proof.
  intros Hx. repeat (apply elem_of_cons in Hx as [-> | Hx]);
    [each_char c; reflexivity .. | by apply elem_of_nil in Hx].
Qed.

Lemma fold_case_upper_B c :
  Ascii.eqb (fold_case "B") (fold_case c) = Ascii.eqb (fold_case "b") (fold_case c).
Proof. reflexivity. Qed.

Lemma letter_not_space (x c : ascii) :
  x ∈ ["b"; "e"; "a"; "r"]%char →
  Ascii.eqb (fold_case x) (fold_case c) = true → Ascii.eqb c " " = false.
Proof.
  intros Hx. repeat (apply elem_of_cons in Hx as [-> | Hx]);
    [each_char c; (reflexivity || discriminate) .. | by apply elem_of_nil in Hx].
Qed.

(** The guard of line 58 is a case-insensitive prefix test. *)
Lemma lower_startswith_bearer (a : string) :
  PyStr.startswith (PyStr.lower a) "bearer " = ci_startswith a "Bearer ".
Proof.
  do 7 (destruct a as [|? a]; [reflexivity |]; cbn [PyStr.lower PyStr.startswith ci_startswith];
        first [ rewrite fold_case_upper_B | idtac ];
        rewrite <- lower_char_fold by (repeat constructor);
        destruct (Ascii.eqb _ (PyStr.lower_char _)); [cbn [andb] | reflexivity]).
  by destruct a.
Qed.

(** After a prefix "Bearer " the first space is the seventh character. *)
Lemma ci_bearer_first_space (a : string) :
  ci_startswith a "Bearer " = true → after_first_space a = Some (PyStr.drop 7 a).
Proof.
  intros Hp.
  do 6 (destruct a as [|? a]; [discriminate |];
        cbn [ci_startswith] in Hp; apply andb_prop in Hp as [Hc Hp];
        first [ rewrite fold_case_upper_B in Hc | idtac ];
        cbn [after_first_space];
        rewrite (λ Hx, letter_not_space _ _ Hx Hc) by (repeat constructor); clear Hc).
  destruct a as [|c a]; [discriminate |].
  cbn [ci_startswith] in Hp. apply andb_prop in Hp as [Hc _].
  cbn [after_first_space PyStr.drop].
  replace (Ascii.eqb c " ") with true; [reflexivity |].
  revert Hc. each_char c; (reflexivity || discriminate).
Qed.

(** [s.split(" ", 1)[1]] is the text after the first space. *)
Lemma split1_space_second (s : string) :
  PyStr.split1 " " s !! 1%nat = after_first_space s.
Proof.
  induction s as [|c s IH]; [reflexivity |].
  cbn [PyStr.split1 PyStr.startswith after_first_space].
  rewrite (Ascii.eqb_sym " " c).
  destruct (Ascii.eqb c " "); [by destruct s |].
  destruct (PyStr.split1 " " s) as [|before [|second rest]]; exact IH.
Qed.

Lemma lstrip_split (s : string) :
  ∃ l, s = l ++ PyStr.lstrip s ∧ PyStr.all_space l = true
       ∧ PyStr.head_solid (PyStr.lstrip s) = true.
Proof.
  induction s as [|c s (l & Hs & Hl & Hh)]; [by exists "" |].
  cbn [PyStr.lstrip]. destruct (PyStr.isspace c) eqn:Hc.
  - exists (String c l). split_and!.
    + change (String c s = String c (l ++ PyStr.lstrip s)). by f_equal.
    + cbn [PyStr.all_space]. by rewrite Hc, Hl.
    + exact Hh.
  - exists "". split_and!; [done | done |].
    cbn [PyStr.head_solid]. by rewrite Hc.
Qed.

Lemma rstrip_split (s : string) :
  ∃ r, s = PyStr.rstrip s ++ r ∧ PyStr.all_space r = true
       ∧ PyStr.last_solid (PyStr.rstrip s) = true
       ∧ (PyStr.head_solid s = true → PyStr.head_solid (PyStr.rstrip s) = true).
Proof.
  induction s as [|c s (r & Hs & Hr & Hl & _)]; [by exists "" |].
  cbn [PyStr.rstrip]. destruct (PyStr.rstrip s) as [|d t] eqn:Ht.
  - destruct (PyStr.isspace c) eqn:Hc.
    + exists (String c r). split_and!; [| | done |].
      * change (String c s = String c r). by f_equal.
      * cbn [PyStr.all_space]. by rewrite Hc, Hr.
      * cbn [PyStr.head_solid]. by rewrite Hc.
    + exists r. split_and!; [| done | |].
      * change (String c s = String c ("" ++ r)). by f_equal.
      * cbn [PyStr.last_solid]. by rewrite Hc.
      * cbn [PyStr.head_solid]. by rewrite Hc.
  - exists r. split_and!; [| done | exact Hl | done].
    change (String c s = String c (String d t ++ r)). by f_equal.
Qed.

(** [strip] removes white space, and only white space, from both ends: the
    string is the result between two runs of white space, and the result
    neither starts nor ends with white space. *)
Lemma strip_trims (s : string) :
  ∃ l r, s = l ++ PyStr.strip s ++ r
         ∧ PyStr.all_space l = true ∧ PyStr.all_space r = true
         ∧ PyStr.head_solid (PyStr.strip s) = true
         ∧ PyStr.last_solid (PyStr.strip s) = true.
Proof.
  destruct (lstrip_split s) as (l & Hs & Hl & Hh).
  destruct (rstrip_split (PyStr.lstrip s)) as (r & Ht & Hr & Hlast & Hhead).
  exists l, r. unfold PyStr.strip. rewrite <- Ht. split_and!; auto.
Qed.

Lemma lstrip_all_space (s : string) :
  PyStr.all_space s = true → PyStr.lstrip s = "".
Proof.
  induction s as [|c s IH]; [reflexivity |].
  cbn [PyStr.all_space PyStr.lstrip].
  intros [Hc Hs]%andb_prop. rewrite Hc. by apply IH.
Qed.

Lemma rstrip_all_space (s : string) :
  PyStr.all_space s = true → PyStr.rstrip s = "".
Proof.
  induction s as [|c s IH]; [reflexivity |].
  cbn [PyStr.all_space PyStr.rstrip].
  intros [Hc Hs]%andb_prop. by rewrite (IH Hs), Hc.
Qed.

Lemma strip_all_space (s : string) :
  PyStr.all_space s = true → PyStr.strip s = "".
Proof. intros Hs. unfold PyStr.strip. by rewrite (lstrip_all_space s Hs). Qed.

Lemma lstrip_app_space (l s : string) :
  PyStr.all_space l = true → PyStr.lstrip (l ++ s) = PyStr.lstrip s.
Proof.
  induction l as [|c l IH]; [reflexivity |].
  cbn [PyStr.all_space]. intros [Hc Hl]%andb_prop.
  change (String c l ++ s) with (String c (l ++ s)).
  cbn [PyStr.lstrip]. rewrite Hc. by apply IH.
Qed.

Lemma rstrip_app_space (k r : string) :
  k ≠ "" → PyStr.last_solid k = true → PyStr.all_space r = true →
  PyStr.rstrip (k ++ r) = k.
Proof.
  intros Hk Hlast Hr. induction k as [|c k IH]; [done |].
  change (String c k ++ r) with (String c (k ++ r)).
  cbn [PyStr.rstrip]. destruct k as [|d k].
  - change ("" ++ r) with r. rewrite (rstrip_all_space r Hr).
    cbn [PyStr.last_solid] in Hlast.
    by destruct (PyStr.isspace c).
  - rewrite IH; [reflexivity | done | exact Hlast].
Qed.

(** A text without white space at its ends is what [strip] gives back when
    white space is put around it. *)
Lemma strip_surrounded (l k r : string) :
  k ≠ "" → PyStr.head_solid k = true → PyStr.last_solid k = true →
  PyStr.all_space l = true → PyStr.all_space r = true →
  PyStr.strip (l ++ k ++ r) = k.
Proof.
  intros Hk Hhead Hlast Hl Hr. unfold PyStr.strip.
  rewrite (lstrip_app_space l _ Hl).
  destruct k as [|c k]; [done |].
  change (String c k ++ r) with (String c (k ++ r)).
  cbn [PyStr.lstrip]. cbn [PyStr.head_solid] in Hhead.
  destruct (PyStr.isspace c); [discriminate |].
  change (String c (k ++ r)) with (String c k ++ r).
  by apply rstrip_app_space.
Qed.

Local Open Scope str_scope.

(** ** Python strings *)

Example unicode_strip_ex : Unicode.strip Edge.ni_hao_spaced = Edge.ni_hao.
Proof. reflexivity. Qed.

Example unicode_strip_ascii : Unicode.strip "  Hi there!  " = "Hi there!".
Proof. reflexivity. Qed.

Lemma unicode_lstrip_split (s : str) :
  ∃ l, s = l ++ Unicode.lstrip s ∧ Unicode.all_space l = true
       ∧ Unicode.head_solid (Unicode.lstrip s) = true.
Proof.
  induction s as [|c s (l & Hs & Hl & Hh)]; [by exists "" |].
  cbn [Unicode.lstrip]. destruct (Unicode.isspace c) eqn:Hc.
  - exists (Str c l). split_and!.
    + cbn [str_app]. by f_equal.
    + cbn [Unicode.all_space]. by rewrite Hc, Hl.
    + exact Hh.
  - exists "". split_and!; [done | done |].
    cbn [Unicode.head_solid]. by rewrite Hc.
Qed.

Lemma unicode_rstrip_split (s : str) :
  ∃ r, s = Unicode.rstrip s ++ r ∧ Unicode.all_space r = true
       ∧ Unicode.last_solid (Unicode.rstrip s) = true
       ∧ (Unicode.head_solid s = true →
          Unicode.head_solid (Unicode.rstrip s) = true).
Proof.
  induction s as [|c s (r & Hs & Hr & Hl & _)]; [by exists "" |].
  cbn [Unicode.rstrip]. destruct (Unicode.rstrip s) as [|d t] eqn:Ht.
  - destruct (Unicode.isspace c) eqn:Hc.
    + exists (Str c r). split_and!; [| | done |].
      * cbn [str_app] in *. by f_equal.
      * cbn [Unicode.all_space]. by rewrite Hc, Hr.
      * cbn [Unicode.head_solid]. by rewrite Hc.
    + exists r. split_and!; [| done | |].
      * cbn [str_app] in *. by f_equal.
      * cbn [Unicode.last_solid]. by rewrite Hc.
      * cbn [Unicode.head_solid]. by rewrite Hc.
  - exists r. split_and!; [| done | exact Hl | done].
    cbn [str_app] in *. by f_equal.
Qed.

(** [strip] removes white space, and only white space, from both ends of
    a [str]: the string is the result between two runs of white space, and
    the result neither starts nor ends with white space. *)
Lemma unicode_strip_trims (s : str) :
  ∃ l r, s = l ++ Unicode.strip s ++ r
         ∧ Unicode.all_space l = true ∧ Unicode.all_space r = true
         ∧ Unicode.head_solid (Unicode.strip s) = true
         ∧ Unicode.last_solid (Unicode.strip s) = true.
Proof.
  destruct (unicode_lstrip_split s) as (l & Hs & Hl & Hh).
  destruct (unicode_rstrip_split (Unicode.lstrip s)) as (r & Ht & Hr & Hlast & Hhead).
  exists l, r. unfold Unicode.strip. rewrite <- Ht. split_and!; auto.
Qed.

(** On header text the two families of methods agree: a byte is white
    space exactly when its code point is. *)
Lemma isspace_decode (c : ascii) :
  Unicode.isspace (N_of_ascii c) = PyStr.isspace c.
Proof. each_char c; reflexivity. Qed.

Lemma lstrip_decode (s : string) :
  Unicode.lstrip (decode_latin1 s) = decode_latin1 (PyStr.lstrip s).
Proof.
  induction s as [|c s IH]; [reflexivity |].
  cbn [decode_latin1 Unicode.lstrip PyStr.lstrip]. rewrite isspace_decode.
  by destruct (PyStr.isspace c).
Qed.

Lemma rstrip_decode (s : string) :
  Unicode.rstrip (decode_latin1 s) = decode_latin1 (PyStr.rstrip s).
Proof.
  induction s as [|c s IH]; [reflexivity |].
  cbn [decode_latin1 Unicode.rstrip PyStr.rstrip]. rewrite IH, isspace_decode.
  destruct (PyStr.rstrip s); cbn [decode_latin1]; by destruct (PyStr.isspace c).
Qed.

(** Stripping the header text and decoding it is stripping the decoded
    [str]. *)
Lemma strip_decode (s : string) :
  Unicode.strip (decode_latin1 s) = decode_latin1 (PyStr.strip s).
Proof. unfold Unicode.strip, PyStr.strip. by rewrite lstrip_decode, rstrip_decode. Qed.

(** Decoding keeps the bytes, in order, as code points. *)
Lemma decode_latin1_points (s : string) :
  code_points (decode_latin1 s) = N_of_ascii <$> list_ascii_of_string s.
Proof.
  induction s as [|c s IH]; [reflexivity |].
  cbn [decode_latin1 code_points list_ascii_of_string fmap list_fmap]. by f_equal.
Qed.

Lemma decode_latin1_empty (s : string) :
  decode_latin1 s = "" ↔ s = ""%string.
Proof. by destruct s. Qed.

Lemma unicode_startswith_refl (s : str) : Unicode.startswith s s = true.
Proof.
  induction s as [|c s IH]; [reflexivity |].
  cbn [Unicode.startswith]. by rewrite N.eqb_refl.
Qed.

Lemma unicode_contains_app (sub pre : str) :
  Unicode.contains sub (pre ++ sub) = true.
Proof.
  induction pre as [|c pre IH].
  - cbn [str_app]. destruct sub as [|c s]; [reflexivity |].
    cbn [Unicode.contains]. by rewrite unicode_startswith_refl.
  - cbn [str_app Unicode.contains]. rewrite IH. apply orb_true_r.
Qed.

(** ** Running the handler *)

Lemma bearer_key_run (authorization : option string) w log :
  bearer_key authorization w log = (log, Returned (bearer_token authorization)).
Proof.
  destruct authorization as [a|]; [| reflexivity].
  unfold bearer_key, bearer_token.
  rewrite lower_startswith_bearer, split1_space_second.
  destruct (ci_startswith a "Bearer ") eqn:Hp.
  - rewrite (ci_bearer_first_space a Hp). by destruct a.
  - by rewrite andb_false_r.
Qed.

(** The chain of [or] picks the first source that is neither absent nor
    empty, and is itself absent or empty when there is none. *)
Lemma or_chain (a b c d : option str) :
  let k := a or' b or' c or' d in
  first_nonempty [a; b; c; d] = if truthy k then k else None.
Proof.
  unfold py_or. cbn [first_nonempty].
  destruct (truthy a) eqn:Ha; cbn; [by rewrite ?Ha |].
  destruct (truthy b) eqn:Hb; cbn; [by rewrite ?Hb |].
  destruct (truthy c) eqn:Hc; cbn; [by rewrite ?Hc |].
  by destruct (truthy d) eqn:Hd.
Qed.

Lemma getitem_dict (d : gmap str pyval) (k : str) :
  getitem (PDict d) (KStr k) =
    match d !! k with Some x => inr x | None => inl KeyError end.
Proof. reflexivity. Qed.

Lemma getitem_first (x : pyval) (l : list pyval) :
  getitem (PList (x :: l)) (KInt 0) = inr x.
Proof. reflexivity. Qed.

Lemma getitem_empty_list (k : pykey) : ∃ e, getitem (PList []) k = inl e.
Proof. destruct k as [|i]; cbn; [by eauto |]. by destruct (i <? 0)%Z, i; eauto. Qed.

Lemma getitem_str_then_key (s k : str) (i : Z) :
  ∃ e, match getitem (PStr s) (KInt i) with
       | inr v => getitem v (KStr k)
       | inl e' => inl e'
       end = inl e.
Proof. cbn. repeat case_match; simplify_eq; eauto. Qed.

Ltac run_step :=
  first [ rewrite getitem_dict | rewrite getitem_first
        | match goal with Hl : ?m !! ?k = _ |- context [?m !! ?k] => rewrite Hl end ];
  cbn [lift ret raise bind strip_method get_method].

(** The subscript chain of line 111 succeeds exactly on the documents that
    have the path [choices[0].message.content]. *)
Lemma extract_reply_found req data text w log :
  content_path data = Some (PStr text) →
  extract_reply req data w log =
    (log, Returned (PStr (Unicode.strip text), default (PStr (model req)) (top_model data))).
Proof.
  unfold content_path. intros Hp.
  repeat case_match; simplify_eq.
  unfold extract_reply, bind, top_model.
  repeat run_step.
  by destruct (_ !! "model").
Qed.

Lemma extract_reply_missing req data w log :
  (∀ text, content_path data ≠ Some (PStr text)) →
  ∃ e, extract_reply req data w log = (log, Raised e).
Proof.
  unfold content_path. intros Hp. unfold extract_reply, bind.
  destruct data as [| | | | |l|d]; try by (cbn; eauto).
  rewrite getitem_dict.
  destruct (d !! "choices") as [choices|]; [| by (cbn; eauto)].
  cbn [lift ret].
  destruct choices as [| | | |s|l|c].
  1-4, 7: by (cbn; eauto).
  - destruct (getitem_str_then_key s "message" 0) as [e He].
    destruct (getitem (PStr s) (KInt 0)); cbn [lift ret raise]; [by eauto |].
    rewrite He. cbn. eauto.
  - destruct l as [|first l].
    { destruct (getitem_empty_list (KInt 0)) as [e ->]. cbn. eauto. }
    rewrite getitem_first. cbn [lift ret].
    destruct first as [| | | | | |f]; try by (cbn; eauto).
    rewrite getitem_dict.
    destruct (f !! "message") as [message|]; [| by (cbn; eauto)].
    cbn [lift ret].
    destruct message as [| | | | | |m]; try by (cbn; eauto).
    rewrite getitem_dict.
    destruct (m !! "content") as [text|]; [| by (cbn; eauto)].
    cbn [lift ret].
    destruct text; try by (cbn; eauto).
    by destruct (Hp s).
Qed.

(** The whole handler in one equation: the key is the first non-empty
    source; without one nothing is sent; with one exactly one call is made
    and its answer decides the result. *)
Lemma chat_run {sc : StrCoercion} {sp : StatusPhrases} req x_openrouter_key authorization w :
  chat req x_openrouter_key authorization w [] =
    match first_nonempty (key_sources req x_openrouter_key authorization w) with
    | None => ([], Raised (HTTPException 400 (PStr missing_key_detail)))
    | Some key =>
        let c := outbound req key w in
        ([c],
         match upstream w 0 c with
         | Responded r => after_response req r
         | Failed (RequestException msg) =>
             Raised (HTTPException 502 (PStr ("Upstream request failed: " ++ msg)))
         | Failed e => Raised e
         end)
    end.
Proof.
  unfold chat, bind at 1. rewrite bearer_key_run.
  unfold bind at 1, getenv at 1. unfold key_sources. rewrite or_chain.
  destruct (_ or' _) as [[|k0 k]|]; cbn [truthy]; try reflexivity.
  unfold bind, getenv_default, try_except, requests_post, except_RequestException, outbound.
  cbn [List.length app default].
  destruct (upstream w 0 _) as [r|e] eqn:Hup; [| by destruct e].
  unfold after_response.
  destruct (status_code r >=? 400)%Z.
  { unfold Response_json, except_Exception. by destruct (json r). }
  unfold Response_json. destruct (json r) as [data|]; [| reflexivity].
  cbn [ret]. unfold except_Exception.
  destruct (content_path data) as [[| | | |text| |]|] eqn:Hp.
  5: { rewrite (extract_reply_found _ _ _ _ _ Hp). cbn [fst snd].
       unfold ChatResponse_new. cbn [validate_str]. by destruct (validate_str _). }
  all: match goal with
       | |- context [extract_reply ?rq ?d ?w0 ?l] =>
           destruct (extract_reply_missing rq d w0 l) as [e He];
           [ intros t; congruence | rewrite He; reflexivity ]
       end.
Qed.

Lemma calls_of_chat {sc : StrCoercion} {sp : StatusPhrases} req x_openrouter_key authorization w :
  calls_of (chat req x_openrouter_key authorization) w =
    match first_nonempty (key_sources req x_openrouter_key authorization w) with
    | Some key => [outbound req key w]
    | None => []
    end.
Proof. unfold calls_of. rewrite chat_run. by destruct (first_nonempty _). Qed.

(** [first_nonempty] is what its name says: the chosen value is not empty
    and everything before it is absent or empty. *)
Lemma first_nonempty_spec (sources : list (option str)) (key : str) :
  first_nonempty sources = Some key ↔
  ∃ before after, sources = (before ++ Some key :: after)%list
                  ∧ Forall (λ o, truthy o = false) before
                  ∧ key ≠ "".
Proof.
  split.
  - induction sources as [|o rest IH]; [discriminate |].
    cbn [first_nonempty]. destruct (truthy o) eqn:Ho.
    + intros ->. exists [], rest. split_and!; [done | constructor |].
      by destruct key.
    + intros (before & after & -> & Hb & Hk)%IH.
      exists (o :: before), after. split_and!; [done | by constructor | done].
  - intros (before & after & -> & Hb & Hk).
    induction Hb as [|o before Ho _ IH]; cbn.
    + by destruct key.
    + by rewrite Ho.
Qed.

(** The merge of line 94: a key of [extra] carries the value [extra] gives
    it, every other key keeps its built-in value. *)
Lemma build_payload_lookup (req : ChatRequest) (k : str) :
  build_payload req !! k =
    match extra req ≫= (.!! k) with
    | Some v => Some v
    | None => builtin_fields req !! k
    end.
Proof.
  unfold build_payload, builtin_fields.
  destruct (extra req) as [e|]; [| reflexivity]. cbn [mbind option_bind].
  destruct (decide (e = ∅)) as [-> | _].
  - by rewrite lookup_empty.
  - rewrite lookup_union. by destruct (e !! k), (_ !! k).
Qed.

Lemma upstream_answer_chat {sc : StrCoercion} {sp : StatusPhrases}
    req x_openrouter_key authorization w answer :
  upstream_answer (chat req x_openrouter_key authorization) w = Some answer →
  ∃ key, first_nonempty (key_sources req x_openrouter_key authorization w) = Some key
         ∧ upstream w 0 (outbound req key w) = answer.
Proof.
  unfold upstream_answer. rewrite calls_of_chat.
  destruct (first_nonempty _) as [key|]; [| discriminate].
  intros [= <-]. by exists key.
Qed.

(** The result of the handler when the network answered its call. *)
Lemma result_of_answer {sc : StrCoercion} {sp : StatusPhrases}
    req x_openrouter_key authorization w answer :
  upstream_answer (chat req x_openrouter_key authorization) w = Some answer →
  List.length (calls_of (chat req x_openrouter_key authorization) w) = 1 ∧
  result_of (chat req x_openrouter_key authorization) w =
    match answer with
    | Responded r => after_response req r
    | Failed (RequestException msg) =>
        Raised (HTTPException 502 (PStr ("Upstream request failed: " ++ msg)))
    | Failed e => Raised e
    end.
Proof.
  intros (key & Hk & Hup)%upstream_answer_chat.
  rewrite calls_of_chat. unfold result_of. rewrite chat_run, Hk.
  cbn [fst snd List.length]. by rewrite Hup.
Qed.

Lemma calls_of_chat_inv {sc : StrCoercion} {sp : StatusPhrases}
    req x_openrouter_key authorization w c :
  calls_of (chat req x_openrouter_key authorization) w = [c] →
  ∃ key, first_nonempty (key_sources req x_openrouter_key authorization w) = Some key
         ∧ c = outbound req key w.
Proof.
  rewrite calls_of_chat. destruct (first_nonempty _) as [key|]; [| discriminate].
  intros [= <-]. by exists key.
Qed.

(** ** The claims *)

(** C1. The key the handler sends upstream is the first non-empty value
    among the body's [api_key], the environment variable
    [OPENROUTER_API_KEY], the [x-openrouter-key] header and the Bearer token
    of the [Authorization] header, in this order; absent and empty sources
    are skipped. *)
Theorem key_precedence {sc : StrCoercion} {sp : StatusPhrases}
    req x_openrouter_key authorization w key :
  first_nonempty
    [ api_key req; environ w !! "OPENROUTER_API_KEY";
      decode_latin1 <$> x_openrouter_key;
      decode_latin1 <$> bearer_token authorization ] = Some key →
  ∃ c, calls_of (chat req x_openrouter_key authorization) w = [c]
       ∧ headers c !! "Authorization" = Some ("Bearer " ++ key).
Proof.
  intros Hk. rewrite calls_of_chat. unfold key_sources. rewrite Hk.
  eexists. split; [reflexivity |]. apply lookup_insert_eq.
Qed.

(** C3. When no source holds a non-empty key the handler raises
    [HTTPException] 400 with a message that names the four ways of giving
    a key, and no outbound call is made. *)
Theorem missing_credential {sc : StrCoercion} {sp : StatusPhrases}
    req x_openrouter_key authorization w :
  truthy (api_key req) = false →
  truthy (environ w !! "OPENROUTER_API_KEY") = false →
  truthy (decode_latin1 <$> x_openrouter_key) = false →
  truthy (decode_latin1 <$> bearer_token authorization) = false →
  calls_of (chat req x_openrouter_key authorization) w = []
  ∧ ∃ detail,
      result_of (chat req x_openrouter_key authorization) w
        = Raised (HTTPException 400 (PStr detail))
      ∧ Unicode.contains "'api_key' in JSON body" detail = true
      ∧ Unicode.contains "'OPENROUTER_API_KEY' env var" detail = true
      ∧ Unicode.contains "header 'x-openrouter-key: <key>'" detail = true
      ∧ Unicode.contains "'Authorization: Bearer <key>'" detail = true.
Proof.
  intros Hbody Henv Hhdr Hbearer.
  unfold calls_of, result_of. rewrite chat_run. unfold key_sources.
  cbn [first_nonempty]. rewrite Hbody, Henv, Hhdr, Hbearer. cbn [fst snd].
  split; [reflexivity |]. exists missing_key_detail.
  split_and!; reflexivity.
Qed.

(** C7. With a resolved key the handler makes exactly one call: a POST to
    the fixed URL with a timeout of 60 seconds, the four headers, and a body
    made of the four built-in fields overlaid with [extra], whose keys win.
    The built-in fields are the model of the request, one object of [role]
    and [content] for each of its messages, and its [temperature] and
    [top_p], each a number or [null]. *)
Theorem outbound_request {sc : StrCoercion} {sp : StatusPhrases}
    req x_openrouter_key authorization w key :
  first_nonempty (key_sources req x_openrouter_key authorization w) = Some key →
  ∃ c, calls_of (chat req x_openrouter_key authorization) w = [c]
       ∧ url c = "https://openrouter.ai/api/v1/chat/completions"
       ∧ timeout c = 60%Z
       ∧ headers c =
           {[ "Authorization" := "Bearer " ++ key;
              "Content-Type" := "application/json";
              "HTTP-Referer" := default "http://localhost:3000" (environ w !! "APP_URL");
              "X-Title" := default "Vibe Chatbot" (environ w !! "APP_NAME") ]}
       ∧ (∀ e k v, extra req = Some e → e !! k = Some v → payload c !! k = Some v)
       ∧ (∀ k, extra req ≫= (.!! k) = None →
            payload c !! k =
              ({[ "model" := PStr (model req);
                  "messages" :=
                    PList ((λ m, PDict {[ "role" := PStr (role m);
                                          "content" := PStr (content m) ]})
                             <$> messages req);
                  "temperature" :=
                    match temperature req with
                    | Some f => PFloat f
                    | None => PNone
                    end;
                  "top_p" :=
                    match top_p req with
                    | Some f => PFloat f
                    | None => PNone
                    end ]} : gmap str pyval) !! k).
Proof.
  intros Hk. rewrite calls_of_chat, Hk.
  exists (outbound req key w). split_and!; try reflexivity.
  - intros e k v He Hv. cbn [outbound payload].
    rewrite build_payload_lookup, He. cbn. by rewrite Hv.
  - intros k Hnone. cbn [outbound payload].
    by rewrite build_payload_lookup, Hnone.
Qed.

(** C8. The Bearer source yields a token exactly when the [Authorization]
    header starts with "Bearer " in any case of letters; any other header,
    or none, yields nothing. The token is then the text after the first
    space, trimmed: that text is the token between two runs of white
    space, and the token neither starts nor ends with white space. The
    computation never raises. *)
Theorem bearer_source (authorization : option string) w log :
  ∃ token : option string,
    bearer_key authorization w log = (log, Returned token)
    ∧ (is_Some token ↔
         ∃ a, authorization = Some a ∧ ci_startswith a "Bearer " = true)
    ∧ (∀ a, authorization = Some a → ci_startswith a "Bearer " = true →
         ∃ rest t before after,
           after_first_space a = Some rest
           ∧ token = Some t
           ∧ t = PyStr.strip rest
           ∧ rest = (before +:+ t +:+ after)
           ∧ PyStr.all_space before = true
           ∧ PyStr.all_space after = true
           ∧ PyStr.head_solid t = true
           ∧ PyStr.last_solid t = true).
Proof.
  exists (bearer_token authorization). split; [apply bearer_key_run |].
  unfold bearer_token. split.
  - split.
    + intros [t Ht]. destruct authorization as [a|]; [| discriminate].
      exists a. split; [reflexivity |].
      by destruct (ci_startswith a "Bearer ").
    + intros (a & -> & Hp). rewrite Hp, (ci_bearer_first_space a Hp). by eexists.
  - intros a -> Hp. rewrite Hp, (ci_bearer_first_space a Hp).
    destruct (strip_trims (PyStr.drop 7 a)) as (before & after & Hsplit & Hb & Ha & Hh & Hl).
    exists (PyStr.drop 7 a), (PyStr.strip (PyStr.drop 7 a)), before, after.
    by split_and!.
Qed.

(** C9. [GET /test] returns [{"status": "ok"}] with status 200 in every
    world and from every log, and leaves the log as it found it. *)
Theorem test_ok (w : World) (log : list Call) :
  test w log = (log, Returned (PDict {[ "status" := PStr "ok" ]}))
  ∧ http_status (snd (test w log)) = 200%Z.
Proof. split; reflexivity. Qed.

(** C2, for a document whose top-level [model] is a string or is missing.
    When the network answers with a status below 400 and a JSON document
    that has a string at [choices[0].message.content], the handler returns
    a [ChatResponse]: its reply is that string without the white space at
    its two ends, its model is the document's [model], or the request's
    model when the document has none. *)
Theorem success_reply {sc : StrCoercion} {sp : StatusPhrases}
    req x_openrouter_key authorization w r data text :
  upstream_answer (chat req x_openrouter_key authorization) w = Some (Responded r) →
  (status_code r < 400)%Z →
  json r = Some data →
  content_path data = Some (PStr text) →
  (top_model data = None ∨ ∃ m, top_model data = Some (PStr m)) →
  ∃ resp,
    result_of (chat req x_openrouter_key authorization) w = Returned resp
    ∧ reply resp = Unicode.strip text
    ∧ (∃ before after, text = before ++ reply resp ++ after
         ∧ Unicode.all_space before = true ∧ Unicode.all_space after = true
         ∧ Unicode.head_solid (reply resp) = true
         ∧ Unicode.last_solid (reply resp) = true)
    ∧ (∀ m, top_model data = Some (PStr m) → used_model resp = m)
    ∧ (top_model data = None → used_model resp = model req).
Proof.
  intros [_ Hres]%result_of_answer Hst Hjson Hpath Hmodel.
  rewrite Hres. unfold after_response.
  replace (status_code r >=? 400)%Z with false by lia.
  rewrite Hjson, Hpath.
  destruct Hmodel as [Hm | [m Hm]]; rewrite Hm; cbn [default validate_str].
  all: eexists; split; [reflexivity |]; cbn [reply used_model].
  all: split_and!; [reflexivity | apply unicode_strip_trims | congruence | congruence].
Qed.

(** C4, for a body that is not the JSON value [null]. When the network
    answers with a status of 400 or more the handler raises
    [HTTPException] with that very status; the detail is the answer's JSON
    document, or [{"error": text}] with the raw text when the body is not
    JSON. *)
Theorem upstream_error {sc : StrCoercion} {sp : StatusPhrases}
    req x_openrouter_key authorization w r :
  upstream_answer (chat req x_openrouter_key authorization) w = Some (Responded r) →
  (status_code r >= 400)%Z →
  json r ≠ Some PNone →
  result_of (chat req x_openrouter_key authorization) w =
    Raised (HTTPException (status_code r)
              (match json r with
               | Some data => data
               | None => PDict {[ "error" := PStr (text r) ]}
               end)).
Proof.
  intros [_ Hres]%result_of_answer Hst Hnull.
  rewrite Hres. unfold after_response.
  replace (status_code r >=? 400)%Z with true by lia.
  by destruct (json r) as [[]|].
Qed.

(** C5. When the network answers with a status below 400 and a JSON
    document without the path [choices[0].message.content], the handler
    raises [HTTPException] 500 with the fixed message about an unexpected
    response format. *)
Theorem malformed_response {sc : StrCoercion} {sp : StatusPhrases}
    req x_openrouter_key authorization w r data :
  upstream_answer (chat req x_openrouter_key authorization) w = Some (Responded r) →
  (status_code r < 400)%Z →
  json r = Some data →
  content_path data = None →
  result_of (chat req x_openrouter_key authorization) w =
    Raised (HTTPException 500 (PStr "Unexpected response format from OpenRouter")).
Proof.
  intros [_ Hres]%result_of_answer Hst Hjson Hpath.
  rewrite Hres. unfold after_response.
  replace (status_code r >=? 400)%Z with false by lia.
  by rewrite Hjson, Hpath.
Qed.

(** C6. When the outbound call raises a [RequestException] the handler
    raises [HTTPException] 502 whose message contains the text of that
    exception, and the call was made once: there is no second attempt,
    whatever the network would have answered to one. *)
Theorem upstream_unreachable {sc : StrCoercion} {sp : StatusPhrases}
    req x_openrouter_key authorization w msg :
  upstream_answer (chat req x_openrouter_key authorization) w
    = Some (Failed (RequestException msg)) →
  List.length (calls_of (chat req x_openrouter_key authorization) w) = 1
  ∧ ∃ detail,
      result_of (chat req x_openrouter_key authorization) w
        = Raised (HTTPException 502 (PStr detail))
      ∧ Unicode.contains msg detail = true.
Proof.
  intros [Hone Hres]%result_of_answer. split; [exact Hone |].
  rewrite Hres. eexists. split; [reflexivity |]. apply unicode_contains_app.
Qed.

(** C10. When the network answers with a status below 400 and a body that
    is not JSON, the handler raises the decoder's exception: the result is
    no [HTTPException], so none of the handler's own error kinds. *)
Theorem non_json_success_escapes {sc : StrCoercion} {sp : StatusPhrases}
    req x_openrouter_key authorization w r :
  upstream_answer (chat req x_openrouter_key authorization) w = Some (Responded r) →
  (status_code r < 400)%Z →
  json r = None →
  result_of (chat req x_openrouter_key authorization) w = Raised JSONDecodeError
  ∧ ∀ status detail,
      result_of (chat req x_openrouter_key authorization) w
        ≠ Raised (HTTPException status detail).
Proof.
  intros [_ Hres]%result_of_answer Hst Hjson.
  rewrite Hres. unfold after_response.
  replace (status_code r >=? 400)%Z with false by lia.
  rewrite Hjson. split; [reflexivity | discriminate].
Qed.

(** ** The claims at sample inputs *)

(** The empty [api_key] of the body is skipped and the key of the
    environment is sent; without a key in the body and the environment
    the key of the [x-openrouter-key] header is sent, before the Bearer
    token. *)
Lemma key_precedence_sample :
  first_nonempty
    [ api_key Sample.request;
      environ (Sample.world (Responded (Sample.ok Sample.completion))) !! "OPENROUTER_API_KEY";
      decode_latin1 <$> Some "sk-header"%string;
      decode_latin1 <$> bearer_token (Some "Bearer sk-bearer"%string) ] = Some "sk-env"
  ∧ (∃ c, calls_of (chat (sc:=strict_str) (sp:=Sample.phrases) Sample.request
                      (Some "sk-header"%string) (Some "Bearer sk-bearer"%string))
            (Sample.world (Responded (Sample.ok Sample.completion))) = [c]
          ∧ headers c !! "Authorization" = Some "Bearer sk-env")
  ∧ (∃ c, calls_of (chat (sc:=strict_str) (sp:=Sample.phrases) Sample.plain_request
                      (Some "sk-header"%string) (Some "Bearer sk-bearer"%string))
            Sample.bare_world = [c]
          ∧ headers c !! "Authorization" = Some "Bearer sk-header").
Proof.
  split_and!.
  - vm_compute; reflexivity.
  - apply (key_precedence (sc:=strict_str) (sp:=Sample.phrases) Sample.request
             (Some "sk-header"%string) (Some "Bearer sk-bearer"%string)
             (Sample.world (Responded (Sample.ok Sample.completion))) "sk-env").
    vm_compute; reflexivity.
  - apply (key_precedence (sc:=strict_str) (sp:=Sample.phrases) Sample.plain_request
             (Some "sk-header"%string) (Some "Bearer sk-bearer"%string)
             Sample.bare_world "sk-header").
    vm_compute; reflexivity.
Defined.

(** A completion whose text has an ideographic space, a line feed and an
    em space around two ideographs, and which names no model. *)
Lemma success_reply_sample :
  ∃ resp,
    result_of (chat (sc:=strict_str) (sp:=Sample.phrases) Sample.request None None)
      (Sample.world (Responded (Sample.ok Edge.unicode_completion))) = Returned resp
    ∧ reply resp = Edge.ni_hao
    ∧ used_model resp = "openai/gpt-4o-mini".
Proof.
  destruct (success_reply (sc:=strict_str) (sp:=Sample.phrases) Sample.request None None
              (Sample.world (Responded (Sample.ok Edge.unicode_completion)))
              (Sample.ok Edge.unicode_completion) Edge.unicode_completion
              Edge.ni_hao_spaced)
    as (resp & Hres & Hreply & _ & _ & Hmodel).
  - vm_compute; reflexivity.
  - vm_compute; reflexivity.
  - reflexivity.
  - vm_compute; reflexivity.
  - left. vm_compute; reflexivity.
  - exists resp. split_and!; [exact Hres | exact Hreply |].
    apply Hmodel. vm_compute; reflexivity.
Defined.

(** A completion that names its model. *)
Example success_reply_named_model :
  result_of (chat (sc:=strict_str) (sp:=Sample.phrases) Sample.request None None)
    (Sample.world (Responded (Sample.ok Sample.completion)))
  = Returned {| reply := "Hi there!"; used_model := "openai/gpt-4o-mini-2024-07-18" |}.
Proof. vm_compute; reflexivity. Qed.

(** C2 does not extend to every document: a completion whose [model] is
    [null] has the text at [choices[0].message.content], yet building the
    [ChatResponse] raises, whatever the validation does with numbers. *)
Lemma success_reply_null_model :
  upstream_answer (chat (sc:=strict_str) (sp:=Sample.phrases) Sample.request None None)
      (Sample.world (Responded (Sample.ok Sample.completion_null_model)))
    = Some (Responded (Sample.ok Sample.completion_null_model))
  ∧ (status_code (Sample.ok Sample.completion_null_model) < 400)%Z
  ∧ content_path Sample.completion_null_model = Some (PStr "  Hi there!  ")
  ∧ top_model Sample.completion_null_model = Some PNone
  ∧ ∀ sc : StrCoercion,
      result_of (chat (sc:=sc) (sp:=Sample.phrases) Sample.request None None)
        (Sample.world (Responded (Sample.ok Sample.completion_null_model)))
      = Raised ValidationError.
Proof. split_and!; vm_compute; reflexivity. Qed.

Lemma missing_credential_sample :
  calls_of (chat (sc:=strict_str) (sp:=Sample.phrases) Sample.plain_request
              (Some ""%string) (Some "Basic dXNlcg=="%string))
    Sample.bare_world = []
  ∧ http_status (result_of (chat (sc:=strict_str) (sp:=Sample.phrases)
                              Sample.plain_request (Some ""%string)
                              (Some "Basic dXNlcg=="%string)) Sample.bare_world) = 400%Z
  ∧ ∃ detail,
      result_of (chat (sc:=strict_str) (sp:=Sample.phrases) Sample.plain_request
                   (Some ""%string) (Some "Basic dXNlcg=="%string)) Sample.bare_world
        = Raised (HTTPException 400 (PStr detail))
      ∧ Unicode.contains "'api_key' in JSON body" detail = true
      ∧ Unicode.contains "'OPENROUTER_API_KEY' env var" detail = true
      ∧ Unicode.contains "header 'x-openrouter-key: <key>'" detail = true
      ∧ Unicode.contains "'Authorization: Bearer <key>'" detail = true.
Proof.
  destruct (missing_credential (sc:=strict_str) (sp:=Sample.phrases)
              Sample.plain_request (Some ""%string)
              (Some "Basic dXNlcg=="%string) Sample.bare_world)
    as (Hcalls & detail & Hres & Hmethods).
  - reflexivity.
  - reflexivity.
  - reflexivity.
  - vm_compute; reflexivity.
  - split_and!; [exact Hcalls | by rewrite Hres |].
    exists detail. by split.
Defined.

(** The message of the 400, as the handler words it. *)
Example missing_credential_detail :
  result_of (chat (sc:=strict_str) (sp:=Sample.phrases) Sample.plain_request
               (Some ""%string) (Some "Basic dXNlcg=="%string)) Sample.bare_world
  = Raised (HTTPException 400 (PStr
      ("OpenRouter API key not provided. Add 'api_key' in JSON body, or set 'OPENROUTER_API_KEY' env var, "
       ++ "or send header 'x-openrouter-key: <key>' or 'Authorization: Bearer <key>'."))).
Proof. vm_compute; reflexivity. Qed.

(** A 429 with the body [{"error": "rate limited"}] comes back as it is. *)
Lemma upstream_error_sample :
  result_of (chat (sc:=strict_str) (sp:=Sample.phrases) Sample.request None None)
    (Sample.world (Responded Sample.rate_limited))
  = Raised (HTTPException 429 (PDict {[ "error" := PStr "rate limited" ]})).
Proof.
  apply (upstream_error (sc:=strict_str) (sp:=Sample.phrases) Sample.request None None
           (Sample.world (Responded Sample.rate_limited)) Sample.rate_limited).
  - vm_compute; reflexivity.
  - vm_compute; discriminate.
  - vm_compute; discriminate.
Defined.

(** An error page that is not JSON is wrapped. *)
Example upstream_error_raw_text :
  result_of (chat (sc:=strict_str) (sp:=Sample.phrases) Sample.request None None)
    (Sample.world (Responded Sample.bad_gateway_page))
  = Raised (HTTPException 502 (PDict {[ "error" := PStr "<html>Bad Gateway</html>" ]})).
Proof. vm_compute; reflexivity. Qed.

(** C4 does not extend to a body that is the JSON value [null]: the
    answer is a 429 whose body parses to [None], and the exception that
    is raised does not carry [None] as its detail, whatever the table of
    phrases; with the phrases of Python 3.11 it carries the phrase of
    429. *)
Lemma upstream_error_null_body :
  upstream_answer (chat (sc:=strict_str) (sp:=Sample.phrases) Sample.request None None)
      (Sample.world (Responded (Edge.null_error 429)))
    = Some (Responded (Edge.null_error 429))
  ∧ (status_code (Edge.null_error 429) >= 400)%Z
  ∧ json (Edge.null_error 429) = Some PNone
  ∧ result_of (chat (sc:=strict_str) (sp:=Sample.phrases) Sample.request None None)
      (Sample.world (Responded (Edge.null_error 429)))
    = Raised (HTTPException 429 (PStr "Too Many Requests"))
  ∧ ∀ sp : StatusPhrases,
      result_of (chat (sc:=strict_str) (sp:=sp) Sample.request None None)
        (Sample.world (Responded (Edge.null_error 429)))
      ≠ Raised (HTTPException 429 PNone).
Proof.
  split_and!; try (vm_compute; reflexivity); try (vm_compute; discriminate).
  intros sp. unfold result_of. rewrite chat_run.
  assert (Hk : first_nonempty (key_sources Sample.request None None
                 (Sample.world (Responded (Edge.null_error 429)))) = Some "sk-env")
    by (vm_compute; reflexivity).
  rewrite Hk. cbn [snd]. unfold after_response, new_HTTPException.
  cbn. by destruct (phrase 429).
Qed.

(** A status that [http.HTTPStatus] does not know, with the body [null]:
    the constructor of the exception fails. *)
Example upstream_error_unknown_status :
  result_of (chat (sc:=strict_str) (sp:=Sample.phrases) Sample.request None None)
    (Sample.world (Responded (Edge.null_error 520)))
  = Raised ValueError.
Proof. vm_compute; reflexivity. Qed.

Lemma malformed_response_sample :
  result_of (chat (sc:=strict_str) (sp:=Sample.phrases) Sample.request None None)
    (Sample.world (Responded (Sample.ok Sample.no_choices)))
  = Raised (HTTPException 500 (PStr "Unexpected response format from OpenRouter")).
Proof.
  apply (malformed_response (sc:=strict_str) (sp:=Sample.phrases) Sample.request None None
           (Sample.world (Responded (Sample.ok Sample.no_choices)))
           (Sample.ok Sample.no_choices) Sample.no_choices).
  - vm_compute; reflexivity.
  - vm_compute; reflexivity.
  - reflexivity.
  - vm_compute; reflexivity.
Defined.

(** The first attempt times out and a second one would have succeeded:
    the handler still makes one call and fails. *)
Lemma upstream_unreachable_sample :
  List.length (calls_of (chat (sc:=strict_str) (sp:=Sample.phrases) Sample.request None None)
                 (Sample.world (Failed (RequestException "Read timed out.")))) = 1
  ∧ ∃ detail,
      result_of (chat (sc:=strict_str) (sp:=Sample.phrases) Sample.request None None)
        (Sample.world (Failed (RequestException "Read timed out.")))
        = Raised (HTTPException 502 (PStr detail))
      ∧ Unicode.contains "Read timed out." detail = true.
Proof.
  apply (upstream_unreachable (sc:=strict_str) (sp:=Sample.phrases) Sample.request None None
           (Sample.world (Failed (RequestException "Read timed out."))) "Read timed out.").
  vm_compute; reflexivity.
Defined.

Example upstream_unreachable_detail :
  result_of (chat (sc:=strict_str) (sp:=Sample.phrases) Sample.request None None)
    (Sample.world (Failed (RequestException "Read timed out.")))
  = Raised (HTTPException 502 (PStr "Upstream request failed: Read timed out.")).
Proof. vm_compute; reflexivity. Qed.

(** [extra] adds [stream] and replaces [model]; the messages, the
    temperature and [top_p] of the request are in the body. *)
Lemma outbound_request_sample :
  ∃ c, calls_of (chat (sc:=strict_str) (sp:=Sample.phrases) Sample.request None None)
         (Sample.world (Responded (Sample.ok Sample.completion))) = [c]
       ∧ headers c !! "X-Title" = Some "Demo"
       ∧ headers c !! "HTTP-Referer" = Some "http://localhost:3000"
       ∧ payload c !! "stream" = Some (PBool false)
       ∧ payload c !! "model" = Some (PStr "other/model")
       ∧ payload c !! "messages"
           = Some (PList [PDict {[ "role" := PStr "user"; "content" := PStr "Hello" ]}])
       ∧ payload c !! "temperature" = Some (PFloat Sample.f0_7)
       ∧ payload c !! "top_p" = Some (PFloat Sample.f1_0).
Proof.
  destruct (outbound_request (sc:=strict_str) (sp:=Sample.phrases) Sample.request None None
              (Sample.world (Responded (Sample.ok Sample.completion))) "sk-env")
    as (c & Hcalls & _ & _ & Hheaders & Hextra & Hbuiltin).
  - vm_compute; reflexivity.
  - exists c. split_and!.
    + exact Hcalls.
    + rewrite Hheaders. vm_compute; reflexivity.
    + rewrite Hheaders. vm_compute; reflexivity.
    + apply (Hextra _ "stream" _ eq_refl). vm_compute; reflexivity.
    + apply (Hextra _ "model" _ eq_refl). vm_compute; reflexivity.
    + rewrite Hbuiltin; vm_compute; reflexivity.
    + rewrite Hbuiltin; vm_compute; reflexivity.
    + rewrite Hbuiltin; vm_compute; reflexivity.
Defined.

Lemma non_json_success_sample :
  result_of (chat (sc:=strict_str) (sp:=Sample.phrases) Sample.request None None)
    (Sample.world (Responded Sample.html_page)) = Raised JSONDecodeError.
Proof.
  apply (non_json_success_escapes (sc:=strict_str) (sp:=Sample.phrases) Sample.request
           None None (Sample.world (Responded Sample.html_page)) Sample.html_page).
  - vm_compute; reflexivity.
  - vm_compute; reflexivity.
  - reflexivity.
Defined.

(** * Further properties of the handlers *)

(** ** How many calls, and when *)

(** X1. The handler never makes more than one outbound call, and it makes
    none exactly when no key source holds a non-empty value. *)
Theorem at_most_one_call {sc : StrCoercion} {sp : StatusPhrases}
    req x_openrouter_key authorization w :
  (List.length (calls_of (chat req x_openrouter_key authorization) w) ≤ 1)%nat
  ∧ (calls_of (chat req x_openrouter_key authorization) w = [] ↔
     first_nonempty (key_sources req x_openrouter_key authorization w) = None).
Proof.
  rewrite calls_of_chat.
  destruct (first_nonempty _) as [key|]; cbn [List.length]; split; try lia; by split.
Qed.

(** X2. A [ChatResponse] is returned only from a completion: the network
    answered the call with a status below 400 and a JSON document with a
    string at [choices[0].message.content]; the reply is that string
    trimmed, it neither starts nor ends with white space, and the model is
    the validated [model] of the document, or of the request when the
    document has none. *)
Theorem returned_only_from_completion {sc : StrCoercion} {sp : StatusPhrases}
    req x_openrouter_key authorization w resp :
  result_of (chat req x_openrouter_key authorization) w = Returned resp →
  ∃ r data text,
    upstream_answer (chat req x_openrouter_key authorization) w = Some (Responded r)
    ∧ (status_code r < 400)%Z
    ∧ json r = Some data
    ∧ content_path data = Some (PStr text)
    ∧ reply resp = Unicode.strip text
    ∧ (∃ before after, text = before ++ reply resp ++ after
         ∧ Unicode.all_space before = true ∧ Unicode.all_space after = true)
    ∧ Unicode.head_solid (reply resp) = true
    ∧ Unicode.last_solid (reply resp) = true
    ∧ validate_str (default (PStr (model req)) (top_model data)) = Some (used_model resp).
Proof.
  unfold result_of, upstream_answer. rewrite calls_of_chat, chat_run.
  destruct (first_nonempty _) as [key|]; [| discriminate].
  cbn [fst snd]. destruct (upstream w 0 _) as [r|e]; [| by destruct e].
  unfold after_response.
  destruct (status_code r >=? 400)%Z eqn:Hst.
  { unfold new_HTTPException. repeat case_match; discriminate. }
  destruct (json r) as [data|] eqn:Hjson; [| discriminate].
  destruct (content_path data) as [[| | | |text| |]|] eqn:Hp; try discriminate.
  destruct (validate_str _) as [m|] eqn:Hm; [| discriminate].
  intros [= <-]. exists r, data, text. cbn [reply used_model].
  destruct (unicode_strip_trims text) as (before & after & Hsplit & Hb & Ha & Hhead & Hlast).
  split_and!; try done; [lia | by exists before, after].
Qed.

(** X3. A document that has [choices[0].message.content] but not as a
    string, as a completion made of tool calls with [content] null, is
    answered like a document without the path: [HTTPException] 500. *)
Theorem non_string_content {sc : StrCoercion} {sp : StatusPhrases}
    req x_openrouter_key authorization w r data v :
  upstream_answer (chat req x_openrouter_key authorization) w = Some (Responded r) →
  (status_code r < 400)%Z →
  json r = Some data →
  content_path data = Some v →
  (∀ text, v ≠ PStr text) →
  result_of (chat req x_openrouter_key authorization) w =
    Raised (HTTPException 500 (PStr "Unexpected response format from OpenRouter")).
Proof.
  intros [_ Hres]%result_of_answer Hst Hjson Hpath Hv.
  rewrite Hres. unfold after_response.
  replace (status_code r >=? 400)%Z with false by lia.
  rewrite Hjson, Hpath. destruct v; try reflexivity. by destruct (Hv s).
Qed.

(** X4. Only a [RequestException] becomes a 502: any other exception of
    the outbound call leaves the handler as it is, after the one call. *)
Theorem other_exception_propagates {sc : StrCoercion} {sp : StatusPhrases}
    req x_openrouter_key authorization w e :
  upstream_answer (chat req x_openrouter_key authorization) w = Some (Failed e) →
  (∀ msg, e ≠ RequestException msg) →
  result_of (chat req x_openrouter_key authorization) w = Raised e
  ∧ List.length (calls_of (chat req x_openrouter_key authorization) w) = 1.
Proof.
  intros [Hone Hres]%result_of_answer He. split; [| exact Hone].
  rewrite Hres. destruct e; try reflexivity. by destruct (He msg).
Qed.


(** ** The outbound call *)

(** X6. The keys of the outbound JSON body are the keys of [extra]
    together with [model], [messages], [temperature] and [top_p]: the four
    built-in keys are always there, and nothing else is added. *)
Theorem payload_keys {sc : StrCoercion} {sp : StatusPhrases}
    req x_openrouter_key authorization w c :
  calls_of (chat req x_openrouter_key authorization) w = [c] →
  dom (payload c) =
    dom (default ∅ (extra req)) ∪ {[ "model"; "messages"; "temperature"; "top_p" ]}.
Proof.
  intros (key & _ & ->)%calls_of_chat_inv. cbn [outbound payload].
  unfold build_payload. destruct (extra req) as [e|]; cbn [default].
  - destruct (decide (e = ∅)) as [-> | _].
    + rewrite ?dom_insert_L, ?dom_singleton_L, ?dom_empty_L. set_solver.
    + rewrite dom_union_L, ?dom_insert_L, ?dom_singleton_L. set_solver.
  - rewrite ?dom_insert_L, ?dom_singleton_L, ?dom_empty_L. set_solver.
Qed.

(** X10. The URL, the headers and the timeout of the call do not depend on
    the messages, the model, the sampling parameters or [extra] of the
    request: two requests with the same [api_key] are sent to the same
    place with the same headers. *)
Theorem request_body_only_changes_payload {sc : StrCoercion} {sp : StatusPhrases}
    req req' x_openrouter_key authorization w :
  api_key req = api_key req' →
  (λ c, (url c, headers c, timeout c)) <$> calls_of (chat req x_openrouter_key authorization) w
  = (λ c, (url c, headers c, timeout c)) <$> calls_of (chat req' x_openrouter_key authorization) w.
Proof.
  intros Hkey. rewrite !calls_of_chat. unfold key_sources. rewrite Hkey.
  by destruct (first_nonempty _).
Qed.

(** X11. Unless [extra] has a key [messages], the body carries the
    messages of the request in their order, one object of [role] and
    [content] for each. *)
Theorem messages_forwarded_in_order {sc : StrCoercion} {sp : StatusPhrases}
    req x_openrouter_key authorization w c :
  calls_of (chat req x_openrouter_key authorization) w = [c] →
  extra req ≫= (.!! "messages") = None →
  ∃ l, payload c !! "messages" = Some (PList l)
       ∧ List.length l = List.length (messages req)
       ∧ ∀ (i : nat) m, messages req !! i = Some m →
           l !! i = Some (PDict {[ "role" := PStr (role m);
                                   "content" := PStr (content m) ]}).
Proof.
  intros (key & _ & ->)%calls_of_chat_inv Hextra. cbn [outbound payload].
  exists (map Message_dict (messages req)). split_and!.
  - rewrite build_payload_lookup, Hextra. reflexivity.
  - apply length_map.
  - intros i m Hm. change (map Message_dict (messages req)) with (Message_dict <$> messages req).
    by rewrite list_lookup_fmap, Hm.
Qed.

(** ** Bearer tokens *)

Lemma bearer_token_prefixed (rest : string) :
  bearer_token (Some ("Bearer " +:+ rest)) = Some (PyStr.strip rest).
Proof.
  unfold bearer_token.
  assert (Hp : ci_startswith ("Bearer " +:+ rest) "Bearer " = true)
    by (destruct rest; vm_compute; reflexivity).
  by rewrite Hp, (ci_bearer_first_space _ Hp).
Qed.

(** X7. A Bearer header whose token is empty or made of white space only
    gives no key: with nothing in the body, the environment and the
    [x-openrouter-key] header, the handler raises the 400 of the missing
    key and makes no call. *)
Theorem blank_bearer_is_no_key {sc : StrCoercion} {sp : StatusPhrases}
    req x_openrouter_key a w :
  truthy (api_key req) = false →
  truthy (environ w !! "OPENROUTER_API_KEY") = false →
  truthy (decode_latin1 <$> x_openrouter_key) = false →
  ci_startswith a "Bearer " = true →
  PyStr.all_space (PyStr.drop 7 a) = true →
  calls_of (chat req x_openrouter_key (Some a)) w = []
  ∧ result_of (chat req x_openrouter_key (Some a)) w
      = Raised (HTTPException 400 (PStr missing_key_detail)).
Proof.
  intros Hbody Henv Hhdr Hp Hblank.
  unfold calls_of, result_of. rewrite chat_run. unfold key_sources, bearer_token.
  rewrite Hp, (ci_bearer_first_space a Hp). cbn [fmap option_fmap option_map].
  rewrite (strip_all_space _ Hblank).
  cbn [first_nonempty decode_latin1]. by rewrite Hbody, Henv, Hhdr.
Qed.

(** X8. When the Bearer header is the only source of a key, the key that
    goes upstream is the token without the white space around it: a header
    "Bearer", a space, white space, a token, white space is sent on as
    "Bearer", one space and the token. A header that is already in that
    form is sent on unchanged. *)
Theorem bearer_header_normalised {sc : StrCoercion} {sp : StatusPhrases}
    req x_openrouter_key w (l k r : string) :
  truthy (api_key req) = false →
  truthy (environ w !! "OPENROUTER_API_KEY") = false →
  truthy (decode_latin1 <$> x_openrouter_key) = false →
  k ≠ ""%string → PyStr.head_solid k = true → PyStr.last_solid k = true →
  PyStr.all_space l = true → PyStr.all_space r = true →
  ∃ c, calls_of (chat req x_openrouter_key (Some ("Bearer " +:+ l +:+ k +:+ r))) w = [c]
       ∧ headers c !! "Authorization" = Some (decode_latin1 ("Bearer " +:+ k)).
Proof.
  intros Hbody Henv Hhdr Hk Hhead Hlast Hl Hr.
  rewrite calls_of_chat. unfold key_sources.
  rewrite bearer_token_prefixed, (strip_surrounded l k r) by done.
  cbn [first_nonempty]. rewrite Hbody, Henv, Hhdr.
  destruct k as [|c k]; [done |]. cbn [fmap option_fmap option_map decode_latin1 truthy].
  eexists. split; [reflexivity |]. apply lookup_insert_eq.
Qed.

(** ** The model of the response *)

(** X9. A completion whose text is fine but whose top-level [model] is
    [null], a list or an object cannot be made into a [ChatResponse]: the
    validation error leaves the handler, it is not turned into the 500 of
    an unexpected format. *)
Theorem unusable_model_raises {sc : StrCoercion} {sp : StatusPhrases}
    req x_openrouter_key authorization w r data text v :
  upstream_answer (chat req x_openrouter_key authorization) w = Some (Responded r) →
  (status_code r < 400)%Z →
  json r = Some data →
  content_path data = Some (PStr text) →
  top_model data = Some v →
  (v = PNone ∨ (∃ l, v = PList l) ∨ (∃ d, v = PDict d)) →
  result_of (chat req x_openrouter_key authorization) w = Raised ValidationError.
Proof.
  intros [_ Hres]%result_of_answer Hst Hjson Hpath Hmodel Hv.
  rewrite Hres. unfold after_response.
  replace (status_code r >=? 400)%Z with false by lia.
  rewrite Hjson, Hpath, Hmodel. cbn [default].
  by destruct Hv as [-> | [[l ->] | [d ->]]].
Qed.

(** ** The further properties at sample inputs *)

Lemma returned_only_from_completion_sample :
  ∃ r data text,
    upstream_answer (chat (sc:=strict_str) (sp:=Sample.phrases) Sample.request None None)
        (Sample.world (Responded (Sample.ok Edge.unicode_completion))) = Some (Responded r)
    ∧ (status_code r < 400)%Z
    ∧ json r = Some data
    ∧ content_path data = Some (PStr text)
    ∧ Edge.ni_hao = Unicode.strip text.
Proof.
  destruct (returned_only_from_completion (sc:=strict_str) (sp:=Sample.phrases)
              Sample.request None None
              (Sample.world (Responded (Sample.ok Edge.unicode_completion)))
              {| reply := Edge.ni_hao; used_model := "openai/gpt-4o-mini" |})
    as (r & data & text & Hup & Hst & Hjson & Hpath & Hreply & _).
  - vm_compute; reflexivity.
  - exists r, data, text. by split_and!.
Defined.

(** A completion made of tool calls has no text to return. *)
Lemma non_string_content_sample :
  result_of (chat (sc:=strict_str) (sp:=Sample.phrases) Sample.request None None)
    (Sample.world (Responded (Sample.ok Edge.tool_call_completion)))
  = Raised (HTTPException 500 (PStr "Unexpected response format from OpenRouter")).
Proof.
  apply (non_string_content (sc:=strict_str) (sp:=Sample.phrases) Sample.request None None
           (Sample.world (Responded (Sample.ok Edge.tool_call_completion)))
           (Sample.ok Edge.tool_call_completion) Edge.tool_call_completion PNone).
  - vm_compute; reflexivity.
  - vm_compute; reflexivity.
  - reflexivity.
  - vm_compute; reflexivity.
  - intros text. discriminate.
Defined.

Lemma other_exception_propagates_sample :
  result_of (chat (sc:=strict_str) (sp:=Sample.phrases) Sample.request None None)
    (Sample.world (Failed (OtherError "UnicodeEncodeError")))
  = Raised (OtherError "UnicodeEncodeError")
  ∧ List.length (calls_of (chat (sc:=strict_str) (sp:=Sample.phrases) Sample.request None None)
                   (Sample.world (Failed (OtherError "UnicodeEncodeError")))) = 1.
Proof.
  apply (other_exception_propagates (sc:=strict_str) (sp:=Sample.phrases)
           Sample.request None None
           (Sample.world (Failed (OtherError "UnicodeEncodeError")))
           (OtherError "UnicodeEncodeError")).
  - vm_compute; reflexivity.
  - intros msg. discriminate.
Defined.


Example responded_outcomes_known_status :
  result_of (chat (sc:=strict_str) (sp:=Sample.phrases) Sample.request None None)
    (Sample.world (Responded (Edge.null_error 429)))
  = Raised (HTTPException 429 (PStr "Too Many Requests")).
Proof. vm_compute; reflexivity. Qed.

Lemma payload_keys_sample :
  dom (payload (outbound Edge.dialogue "sk-body" Sample.bare_world)) =
    dom (default ∅ (extra Edge.dialogue))
    ∪ {[ "model"; "messages"; "temperature"; "top_p" ]}.
Proof.
  apply (payload_keys (sc:=strict_str) (sp:=Sample.phrases) Edge.dialogue None None
           Sample.bare_world).
  vm_compute; reflexivity.
Defined.

Lemma blank_bearer_sample :
  calls_of (chat (sc:=strict_str) (sp:=Sample.phrases) Sample.plain_request None
              (Some "bearer   "%string))
    Sample.bare_world = []
  ∧ result_of (chat (sc:=strict_str) (sp:=Sample.phrases) Sample.plain_request None
                 (Some "bearer   "%string))
      Sample.bare_world
    = Raised (HTTPException 400 (PStr missing_key_detail)).
Proof.
  apply (blank_bearer_is_no_key (sc:=strict_str) (sp:=Sample.phrases)
           Sample.plain_request None "bearer   " Sample.bare_world);
    vm_compute; reflexivity.
Defined.

(** [Authorization: Bearer  sk-live ] goes upstream as [Bearer sk-live]. *)
Lemma bearer_header_normalised_sample :
  ∃ c, calls_of (chat (sc:=strict_str) (sp:=Sample.phrases) Sample.plain_request None
                   (Some ("Bearer " +:+ " " +:+ "sk-live" +:+ "  ")))
         Sample.bare_world = [c]
       ∧ headers c !! "Authorization" = Some "Bearer sk-live".
Proof.
  apply (bearer_header_normalised (sc:=strict_str) (sp:=Sample.phrases)
           Sample.plain_request None Sample.bare_world " " "sk-live" "  ");
    first [ discriminate | vm_compute; reflexivity ].
Defined.

Lemma unusable_model_sample :
  result_of (chat (sc:=strict_str) (sp:=Sample.phrases) Sample.request None None)
    (Sample.world (Responded (Sample.ok Edge.list_model_completion)))
  = Raised ValidationError.
Proof.
  apply (unusable_model_raises (sc:=strict_str) (sp:=Sample.phrases) Sample.request None None
           (Sample.world (Responded (Sample.ok Edge.list_model_completion)))
           (Sample.ok Edge.list_model_completion) Edge.list_model_completion
           "ok" (PList [PStr "a"; PStr "b"])).
  - vm_compute; reflexivity.
  - vm_compute; reflexivity.
  - reflexivity.
  - vm_compute; reflexivity.
  - vm_compute; reflexivity.
  - right. left. by eexists.
Defined.

Lemma request_body_only_changes_payload_sample :
  (λ c, (url c, headers c, timeout c))
    <$> calls_of (chat (sc:=strict_str) (sp:=Sample.phrases) Edge.dialogue None None)
          Sample.bare_world
  = (λ c, (url c, headers c, timeout c))
    <$> calls_of (chat (sc:=strict_str) (sp:=Sample.phrases)
                    {| messages := []; model := "other/model"; temperature := None;
                       top_p := None; api_key := Some "sk-body";
                       extra := Some {[ "Authorization" := PStr "x" ]} |}
                    None None) Sample.bare_world.
Proof.
  apply (request_body_only_changes_payload (sc:=strict_str) (sp:=Sample.phrases)).
  reflexivity.
Defined.

Lemma messages_forwarded_sample :
  ∃ l, payload (outbound Edge.dialogue "sk-body" Sample.bare_world) !! "messages"
         = Some (PList l)
       ∧ List.length l = List.length (messages Edge.dialogue)
       ∧ ∀ (i : nat) m, messages Edge.dialogue !! i = Some m →
           l !! i = Some (PDict {[ "role" := PStr (role m);
                                   "content" := PStr (content m) ]}).
Proof.
  apply (messages_forwarded_in_order (sc:=strict_str) (sp:=Sample.phrases)
           Edge.dialogue None None Sample.bare_world).
  - vm_compute; reflexivity.
  - vm_compute; reflexivity.
Defined.
